(** * Sentiment-analysis API: the request handlers of [main.py]

    [main.py] loads one Hugging Face text-classification pipeline when the
    module is imported and serves two FastAPI routes: [GET /] (a health
    check) and [POST /predict] (validate the body as [TextInput], run the
    pipeline on the text, return the text and the first result).

    The handlers are embedded as functions in a small state-and-exception
    monad.  The pipeline is a third-party object: it is a parameter of the
    development, given as a function from the text and the pipeline's own
    internal state to an outcome and a new internal state.  The parts of
    FastAPI and pydantic the routes go through (body validation, the 422
    and 500 responses) are written out next to the handlers. *)

From Stdlib Require Import ZArith QArith String List.
From stdpp Require Import base option gmap strings list.
Import ListNotations.

Local Open Scope string_scope.
Local Open Scope Z_scope.
Local Open Scope list_scope.

(** ** Python values

    The values that cross the HTTP boundary and that the pipeline hands
    back: what [json.loads] produces and [json.dumps] accepts.  A [dict]
    has string keys and is compared by content, hence a finite map.  A
    Python [float] is kept as the rational it denotes: [nan] and the two
    infinities, which JSON has no syntax for, are outside this type. *)

#[warnings="-register-all"]
Inductive pyval : Type :=
| PNone
| PBool (b : bool)
| PInt (z : Z)
| PFloat (q : Q)
| PStr (s : string)
| PList (l : list pyval)
| PDict (d : gmap string pyval).

(** ** Exceptions and the handler monad *)

(** A raised Python exception: its class name and its message. *)
Record exn : Type := Exn { exn_class : string; exn_msg : string }.

Inductive result (A : Type) : Type :=
| Ok (a : A)
| Raise (e : exn).
Arguments Ok {A} a.
Arguments Raise {A} e.

Definition IndexError (msg : string) : exn := Exn "IndexError" msg.
Definition KeyError (msg : string) : exn := Exn "KeyError" msg.
Definition TypeError (msg : string) : exn := Exn "TypeError" msg.

(** [x[0]] on a Python value.  A list gives its first element, a string its
    first character; both raise [IndexError] when empty.  A dict is looked
    up at the integer key [0], which a string-keyed dict never has.  The
    other values are not subscriptable. *)
Definition getitem0 (x : pyval) : result pyval :=
  match x with
  | PList (v :: _) => Ok v
  | PList [] => Raise (IndexError "list index out of range")
  | PStr (String c _) => Ok (PStr (String c EmptyString))
  | PStr EmptyString => Raise (IndexError "string index out of range")
  | PDict _ => Raise (KeyError "0")
  | PNone => Raise (TypeError "'NoneType' object is not subscriptable")
  | PBool _ => Raise (TypeError "'bool' object is not subscriptable")
  | PInt _ => Raise (TypeError "'int' object is not subscriptable")
  | PFloat _ => Raise (TypeError "'float' object is not subscriptable")
  end.

(** ** The request body: [class TextInput(BaseModel): text: str] *)

Record TextInput : Type := { text : string }.

(** One entry of pydantic's error list, as FastAPI sends it in the 422
    body: the error type, the location of the offending part of the
    request, a message, and the offending input. *)
Record validation_error : Type := {
  err_type : string;
  err_loc : list string;
  err_msg : string;
  err_input : pyval }.

(** Validation of the parsed JSON body against [TextInput].  The body has
    to be an object; [text] has to be present and has to be a string (a
    [str] field takes no number, boolean, null, list or object from JSON).
    Keys other than [text] are not looked at: the model keeps pydantic's
    default of ignoring extra fields. *)
Definition validate (body : pyval) : TextInput + validation_error :=
  match body with
  | PDict d =>
      match d !! "text" with
      | Some (PStr s) => inl {| text := s |}
      | Some v =>
          inr {| err_type := "string_type";
                 err_loc := ["body"; "text"];
                 err_msg := "Input should be a valid string";
                 err_input := v |}
      | None =>
          inr {| err_type := "missing";
                 err_loc := ["body"; "text"];
                 err_msg := "Field required";
                 err_input := body |}
      end
  | PNone =>
      inr {| err_type := "missing";
             err_loc := ["body"];
             err_msg := "Field required";
             err_input := PNone |}
  | _ =>
      inr {| err_type := "model_attributes_type";
             err_loc := ["body"];
             err_msg := "Input should be a valid dictionary or object to extract fields from";
             err_input := body |}
  end.

(** ** HTTP responses *)

Inductive content : Type :=
| JSON (v : pyval)
| PlainText (s : string).

Record response : Type := { status_code : Z; body : content }.

(** The body of a 422 response: [{"detail": [error]}]. *)
Definition error_json (e : validation_error) : pyval :=
  PDict {[ "type" := PStr (err_type e);
           "loc" := PList (PStr <$> err_loc e);
           "msg" := PStr (err_msg e);
           "input" := err_input e ]}.

Definition unprocessable (e : validation_error) : response :=
  {| status_code := 422;
     body := JSON (PDict {[ "detail" := PList [error_json e] ]}) |}.

(** What the server answers when a handler raises: the exception is not
    part of the answer. *)
Definition internal_server_error : response :=
  {| status_code := 500; body := PlainText "Internal Server Error" |}.

(** ** The process state

    The only state of the process that the routes can reach is the loaded
    pipeline object.  [calls] is a ghost log of the texts the pipeline has
    been invoked on, oldest first; the program has no such field, it is
    there to state when, and how often, the model is invoked.  The
    counters that [Instrumentator().instrument(app)] keeps are owned by
    that library and read by its [/metrics] route only; they never reach
    the two route functions and are left out. *)

Record world (model : Type) : Type := World {
  pipeline_state : model;
  calls : list string }.
Arguments World {model} _ _.
Arguments pipeline_state {model} _.
Arguments calls {model} _.

(** A computation that reads and updates the process state and either
    returns a value or raises. *)
Definition M (model A : Type) : Type := world model -> result A * world model.

Definition ret {model A : Type} (a : A) : M model A := fun w => (Ok a, w).

Definition bind {model A B : Type} (c : M model A) (k : A -> M model B)
  : M model B :=
  fun w =>
    match c w with
    | (Ok a, w') => k a w'
    | (Raise e, w') => (Raise e, w')
    end.

(** A pure step that may raise, such as an index access. *)
Definition lift {model A : Type} (r : result A) : M model A := fun w => (r, w).

Notation "'do' x <- c ; k" := (bind c (fun x => k))
  (at level 10, x name, c at level 100, k at level 200,
   format "'[v' 'do'  x  <-  c ; '/' k ']'").

(** A request to one of the two routes of [main.py]: [GET /], or
    [POST /predict] with the parsed JSON body. *)
Inductive request : Type :=
| GetRoot
| PostPredict (json_body : pyval).

Section App.

(** The internal state of the loaded pipeline object. *)
Variable model : Type.

(** [sentiment_pipeline = pipeline("sentiment-analysis", model=...)]: a
    call takes the text and returns a value or raises; it may read and
    update the pipeline's internal state. *)
Variable sentiment_pipeline : string -> model -> result pyval * model.

(** The call [sentiment_pipeline(text)] as a step of the handler. *)
Definition call_pipeline (t : string) : M model pyval :=
  fun w =>
    let '(r, m') := sentiment_pipeline t (pipeline_state w) in
    (r, {| pipeline_state := m'; calls := calls w ++ [t] |}).

(** [@app.get("/") def read_root()] *)
Definition read_root : M model pyval :=
  ret (PDict {[ "message" := PStr "Sentiment Analysis API is running!" ]}).

(** [@app.post("/predict") def predict_sentiment(input_data: TextInput)] *)
Definition predict_sentiment (input_data : TextInput) : M model pyval :=
  let text := text input_data in
  do result <- call_pipeline text;
  do first <- lift (getitem0 result);
  ret (PDict {[ "input_text" := PStr text; "prediction" := first ]}).

(** A route function run by FastAPI: the returned value becomes the JSON
    body of a 200 response; an exception that leaves the function becomes
    the 500 response. *)
Definition endpoint (h : M model pyval) : world model -> response * world model :=
  fun w =>
    match h w with
    | (Ok v, w') => ({| status_code := 200; body := JSON v |}, w')
    | (Raise _, w') => (internal_server_error, w')
    end.

(** The two routes declared in [main.py].  The body of [POST /predict]
    is validated before the route function runs; when validation fails
    the route function is not run. *)
Definition app (req : request) : world model -> response * world model :=
  match req with
  | GetRoot => endpoint read_root
  | PostPredict json_body =>
      match validate json_body with
      | inl input_data => endpoint (predict_sentiment input_data)
      | inr e => fun w => (unprocessable e, w)
      end
  end.

(** Requests served one after the other by the same process. *)
Fixpoint serve (reqs : list request) (w : world model)
  : list response * world model :=
  match reqs with
  | [] => ([], w)
  | req :: reqs' =>
      let '(r, w') := app req w in
      let '(rs, w'') := serve reqs' w' in
      (r :: rs, w'')
  end.

End App.

Arguments call_pipeline {model} _ _ _.
Arguments read_root {model} _.
Arguments predict_sentiment {model} _ _ _.
Arguments endpoint {model} _ _.
Arguments app {model} _ _ _.
Arguments serve {model} _ _ _.

(** ** Reading responses *)

(** [v[k]] on a dict, [None] on a missing key or a value that is no dict. *)
Definition item (k : string) (v : pyval) : option pyval :=
  match v with
  | PDict d => d !! k
  | _ => None
  end.

(** [response.json()[k]]. *)
Definition response_field (k : string) (r : response) : option pyval :=
  match body r with
  | JSON v => item k v
  | PlainText _ => None
  end.

(** The label set of the model, as [test_main.py] lists it. *)
Definition labels : list string := ["POSITIVE"; "NEGATIVE"].

(** [0 < s < 1]. *)
Definition score_in_open_unit (s : Q) : bool :=
  negb (Qle_bool s 0) && negb (Qle_bool 1 s).

(** A prediction as the data model describes it: a [label] out of the
    label set and a [score] strictly between 0 and 1. *)
Definition is_prediction_result (p : pyval) : bool :=
  match item "label" p, item "score" p with
  | Some (PStr l), Some (PFloat s) =>
      bool_decide (l ∈ labels) && score_in_open_unit s
  | _, _ => false
  end.


(** The response of a successful prediction. *)
Definition ok_response (t : string) (p : pyval) : response :=
  {| status_code := 200;
     body := JSON (PDict {[ "input_text" := PStr t; "prediction" := p ]}) |}.

(** The response of the health check. *)
Definition health_response : response :=
  {| status_code := 200;
     body := JSON (PDict {[ "message" := PStr "Sentiment Analysis API is running!" ]}) |}.

(** The state after one call of the pipeline on [t] that left the
    pipeline in state [m']. *)
Definition after_call {model : Type} (w : world model) (t : string) (m' : model)
  : world model :=
  {| pipeline_state := m'; calls := calls w ++ [t] |}.

(** ** Pipelines for the examples *)

(** A pipeline that gives the same outcome for every text and counts its
    calls in its internal state. *)
Definition constant_pipeline (r : result pyval)
  : string -> nat -> result pyval * nat :=
  fun _ n => (r, S n).

(** What the real pipeline returns for one text: a list of one dict. *)
Definition positive_result : pyval :=
  PList [PDict {[ "label" := PStr "POSITIVE"; "score" := PFloat (9998 # 10000) ]}].


(** A pipeline whose outcome depends on the text and on nothing else: it
    counts its calls, and the count never reaches the outcome. *)
Definition toy_pipeline : string -> nat -> result pyval * nat :=
  fun t n =>
    let label := if String.prefix "not " t then "NEGATIVE" else "POSITIVE" in
    (Ok (PList [PDict {[ "label" := PStr label;
                         "score" := PFloat (9998 # 10000) ]}]), S n).

Definition fresh : world nat := {| pipeline_state := 0%nat; calls := [] |}.

(** ** Which requests reach the model *)

(** The text a request hands to the pipeline: the [text] of a body that
    passes validation.  A health check and a rejected body have none. *)
Definition request_text (req : request) : option string :=
  match req with
  | GetRoot => None
  | PostPredict json_body =>
      match validate json_body with
      | inl input_data => Some (text input_data)
      | inr _ => None
      end
  end.

Definition reaches_model (req : request) : bool :=
  match request_text req with
  | Some _ => true
  | None => false
  end.

(** The texts of the requests of a sequence that reach the model, in the
    order of the requests. *)
Definition model_texts (reqs : list request) : list string :=
  omap request_text reqs.

(** The internal state of a pipeline after it has been called on the
    given texts, one after the other. *)
Fixpoint run_pipeline {model : Type}
    (sentiment_pipeline : string -> model -> result pyval * model)
    (ts : list string) (m : model) : model :=
  match ts with
  | [] => m
  | t :: ts' => run_pipeline sentiment_pipeline ts' (snd (sentiment_pipeline t m))
  end.

(** The responses, out of [rs], to those requests of [reqs] that reach
    the model. *)
Definition responses_of_model_requests
    (reqs : list request) (rs : list response) : list response :=
  map snd (List.filter (fun x => reaches_model (fst x)) (combine reqs rs)).

(** ** The test of the predict route, [test_main.py]

    What the test does with the response, in Python's terms: [assert],
    subscription by a string key, [==] against a string, [in] over a list
    of strings, and the chained comparison [0 < x < 1]. *)

Definition AssertionError : exn := Exn "AssertionError" "".

Definition assert_ (b : bool) : result unit :=
  if b then Ok tt else Raise AssertionError.

(** [v[k]] for a string key [k]: the value under the key in a dict,
    [KeyError] when the key is missing, [TypeError] on every other
    value. *)
Definition getitem (k : string) (v : pyval) : result pyval :=
  match v with
  | PDict d =>
      match d !! k with
      | Some x => Ok x
      | None => Raise (KeyError (String.append "'" (String.append k "'")))
      end
  | PList _ => Raise (TypeError "list indices must be integers or slices, not str")
  | PStr _ => Raise (TypeError "string indices must be integers, not 'str'")
  | PNone => Raise (TypeError "'NoneType' object is not subscriptable")
  | PBool _ => Raise (TypeError "'bool' object is not subscriptable")
  | PInt _ => Raise (TypeError "'int' object is not subscriptable")
  | PFloat _ => Raise (TypeError "'float' object is not subscriptable")
  end.

(** [v == s] for a string [s]: only an equal string is equal to it. *)
Definition eq_str (v : pyval) (s : string) : bool :=
  match v with
  | PStr s' => String.eqb s' s
  | _ => false
  end.

(** [v in l] for a list [l] of strings. *)
Definition in_strs (v : pyval) (l : list string) : bool :=
  existsb (eq_str v) l.

(** [0 < v < 1]: a comparison of numbers ([bool] counts as [int]); an
    integer is never strictly between 0 and 1; every other value cannot
    be compared with [0]. *)
Definition between_0_and_1 (v : pyval) : result bool :=
  match v with
  | PFloat q => Ok (score_in_open_unit q)
  | PInt z => Ok ((0 <? z) && (z <? 1))
  | PBool b => Ok ((0 <? Z.b2z b) && (Z.b2z b <? 1))
  | PNone => Raise (TypeError "'<' not supported between instances of 'int' and 'NoneType'")
  | PStr _ => Raise (TypeError "'<' not supported between instances of 'int' and 'str'")
  | PList _ => Raise (TypeError "'<' not supported between instances of 'int' and 'list'")
  | PDict _ => Raise (TypeError "'<' not supported between instances of 'int' and 'dict'")
  end.

(** [response.json()]: the JSON body; a body that is no JSON does not
    decode. *)
Definition json (r : response) : result pyval :=
  match body r with
  | JSON v => Ok v
  | PlainText _ => Raise (Exn "JSONDecodeError" "Expecting value: line 1 column 1 (char 0)")
  end.

Section Tests.

Variable model : Type.
Variable sentiment_pipeline : string -> model -> result pyval * model.

(** [client = TestClient(app)]: a request is run against the app in the
    test's own process.  The client is created with its defaults, so an
    exception that leaves a route function is raised again in the test
    instead of coming back as a 500 response. *)
Definition client (req : request) : M model response :=
  match req with
  | GetRoot =>
      do v <- read_root (model := model);
      ret {| status_code := 200; body := JSON v |}
  | PostPredict json_body =>
      match validate json_body with
      | inl input_data =>
          do v <- predict_sentiment sentiment_pipeline input_data;
          ret {| status_code := 200; body := JSON v |}
      | inr e => ret (unprocessable e)
      end
  end.

(** [def test_predict_sentiment()].  The request goes to [predict/]; the
    client follows the redirect to the route [/predict].  The [print] of
    the response has no part in the outcome and is left out. *)
Definition test_predict_sentiment : M model unit :=
  let test_text := "What a lovely day!" in
  do response <- client (PostPredict (PDict {[ "text" := PStr test_text ]}));
  do a1 <- lift (assert_ (status_code response =? 200));
  do res <- lift (json response);
  do input_text <- lift (getitem "input_text" res);
  do a2 <- lift (assert_ (eq_str input_text test_text));
  do prediction <- lift (getitem "prediction" res);
  do label <- lift (getitem "label" prediction);
  do a3 <- lift (assert_ (in_strs label ["POSITIVE"; "NEGATIVE"]));
  do prediction' <- lift (getitem "prediction" res);
  do score <- lift (getitem "score" prediction');
  do in_range <- lift (between_0_and_1 score);
  lift (assert_ in_range).

End Tests.

Arguments client {model} _ _ _.
Arguments test_predict_sentiment {model} _ _.

(** ** How the handlers run *)

Section Run.

Context {model : Type}.
Variable sentiment_pipeline : string -> model -> result pyval * model.

Abbreviation predict := (predict_sentiment sentiment_pipeline).
Abbreviation serve_app := (app sentiment_pipeline).


(** The handler, step by step: one call of the pipeline, then the index
    access, then the dict. *)
Lemma predict_sentiment_run (input_data : TextInput) (w : world model) :
  predict input_data w =
    match sentiment_pipeline (text input_data) (pipeline_state w) with
    | (Ok res, m') =>
        match getitem0 res with
        | Ok p =>
            (Ok (PDict {[ "input_text" := PStr (text input_data);
                          "prediction" := p ]}),
             after_call w (text input_data) m')
        | Raise e => (Raise e, after_call w (text input_data) m')
        end
    | (Raise e, m') => (Raise e, after_call w (text input_data) m')
    end.
Proof.
  unfold predict_sentiment, bind, call_pipeline, lift, ret, after_call.
  destruct (sentiment_pipeline _ _) as [[res|e] m']; [|done].
  by destruct (getitem0 res).
Qed.

Lemma validate_text (d : gmap string pyval) (s : string) :
  d !! "text" = Some (PStr s) -> validate (PDict d) = inl {| text := s |}.
Proof. intros Hd. unfold validate. by rewrite Hd. Qed.

(** A body with a string [text] is handed to the route function. *)
Lemma post_predict_valid (d : gmap string pyval) (s : string) (w : world model) :
  d !! "text" = Some (PStr s) ->
  serve_app (PostPredict (PDict d)) w = endpoint (predict {| text := s |}) w.
Proof. intros Hd. unfold app. by rewrite (validate_text d s Hd). Qed.

(** The three ways a valid request can end. *)
Lemma post_predict_ok d s w res m' p :
  d !! "text" = Some (PStr s) ->
  sentiment_pipeline s (pipeline_state w) = (Ok res, m') ->
  getitem0 res = Ok p ->
  serve_app (PostPredict (PDict d)) w = (ok_response s p, after_call w s m').
Proof.
  intros Hd Hp Hg. rewrite (post_predict_valid d s w Hd).
  unfold endpoint. rewrite predict_sentiment_run. cbn [text].
  by rewrite Hp, Hg.
Qed.

Lemma post_predict_index_fault d s w res m' e :
  d !! "text" = Some (PStr s) ->
  sentiment_pipeline s (pipeline_state w) = (Ok res, m') ->
  getitem0 res = Raise e ->
  serve_app (PostPredict (PDict d)) w = (internal_server_error, after_call w s m').
Proof.
  intros Hd Hp Hg. rewrite (post_predict_valid d s w Hd).
  unfold endpoint. rewrite predict_sentiment_run. cbn [text].
  by rewrite Hp, Hg.
Qed.

Lemma post_predict_model_raises d s w m' e :
  d !! "text" = Some (PStr s) ->
  sentiment_pipeline s (pipeline_state w) = (Raise e, m') ->
  serve_app (PostPredict (PDict d)) w = (internal_server_error, after_call w s m').
Proof.
  intros Hd Hp. rewrite (post_predict_valid d s w Hd).
  unfold endpoint. rewrite predict_sentiment_run. cbn [text].
  by rewrite Hp.
Qed.

(** Every valid request calls the pipeline once, on the text. *)
Lemma post_predict_calls d s w :
  d !! "text" = Some (PStr s) ->
  calls (snd (serve_app (PostPredict (PDict d)) w)) = calls w ++ [s].
Proof.
  intros Hd. rewrite (post_predict_valid d s w Hd).
  unfold endpoint. rewrite predict_sentiment_run. cbn [text].
  destruct (sentiment_pipeline _ _) as [[res|e] m']; [|done].
  by destruct (getitem0 res).
Qed.

(** A 200 answer to a valid request is [ok_response]. *)
Lemma post_predict_200_inv d s w r w' :
  d !! "text" = Some (PStr s) ->
  serve_app (PostPredict (PDict d)) w = (r, w') ->
  status_code r = 200 ->
  exists res p,
    sentiment_pipeline s (pipeline_state w) = (Ok res, pipeline_state w') /\
    getitem0 res = Ok p /\ r = ok_response s p.
Proof.
  intros Hd Hrun Hst. rewrite (post_predict_valid d s w Hd) in Hrun.
  unfold endpoint in Hrun. rewrite predict_sentiment_run in Hrun.
  cbn [text] in Hrun.
  destruct (sentiment_pipeline _ _) as [[res|e] m'].
  - destruct (getitem0 res) as [p|e] eqn:Hg; simplify_eq.
    by exists res, p.
  - simplify_eq.
Qed.

End Run.

(** ** The echo of the input *)

(** C1: for every request body that has a string [text] field, a response
    of the predict route with status 200 carries an [input_text] field
    equal to the submitted text. *)
Theorem predict_echoes_input_text {model : Type}
    (sentiment_pipeline : string -> model -> result pyval * model)
    (d : gmap string pyval) (s : string) (w w' : world model) (r : response) :
  d !! "text" = Some (PStr s) ->
  app sentiment_pipeline (PostPredict (PDict d)) w = (r, w') ->
  status_code r = 200 ->
  response_field "input_text" r = Some (PStr s).
Proof.
  intros Hd Hrun Hst.
  destruct (post_predict_200_inv _ d s w r w' Hd Hrun Hst)
    as (res & p & _ & _ & ->).
  unfold response_field, ok_response, item; cbn [body].
  apply lookup_insert_eq.
Qed.

Lemma predict_echoes_input_text_witness :
  response_field "input_text"
    (fst (app (constant_pipeline (Ok positive_result))
            (PostPredict (PDict {[ "text" := PStr "What a lovely day!" ]}))
            fresh))
  = Some (PStr "What a lovely day!").
Proof.
  apply (predict_echoes_input_text (constant_pipeline (Ok positive_result))
           {[ "text" := PStr "What a lovely day!" ]} "What a lovely day!"
           fresh (after_call fresh "What a lovely day!" 1%nat)).
  - reflexivity.
  - reflexivity.
  - reflexivity.
Defined.

(** ** Label and score *)



(** ** Validation errors *)



(** ** Failures of the model call *)

(** C4: when the call of the pipeline raises, the handler raises that same
    exception (it catches nothing), and the predict route answers with the
    fixed 500 response, whose body is the plain text "Internal Server
    Error": no part of a prediction and no text of the exception is in
    it.  The pipeline has been called exactly once. *)
Theorem model_error_is_500 {model : Type}
    (sentiment_pipeline : string -> model -> result pyval * model)
    (d : gmap string pyval) (t : string) (w : world model)
    (e : exn) (m' : model) :
  d !! "text" = Some (PStr t) ->
  sentiment_pipeline t (pipeline_state w) = (Raise e, m') ->
  predict_sentiment sentiment_pipeline {| text := t |} w
    = (Raise e, after_call w t m') /\
  app sentiment_pipeline (PostPredict (PDict d)) w
    = ({| status_code := 500; body := PlainText "Internal Server Error" |},
       after_call w t m') /\
  calls (after_call w t m') = calls w ++ [t].
Proof.
  intros Hd Hp. split; [|split].
  - rewrite predict_sentiment_run. cbn [text]. by rewrite Hp.
  - by apply (post_predict_model_raises _ d t w m' e).
  - reflexivity.
Qed.

Lemma model_error_is_500_witness :
  predict_sentiment
    (constant_pipeline (Raise (Exn "RuntimeError" "CUDA out of memory")))
    {| text := "hi" |} fresh
    = (Raise (Exn "RuntimeError" "CUDA out of memory"), after_call fresh "hi" 1%nat) /\
  app (constant_pipeline (Raise (Exn "RuntimeError" "CUDA out of memory")))
    (PostPredict (PDict {[ "text" := PStr "hi" ]})) fresh
    = ({| status_code := 500; body := PlainText "Internal Server Error" |},
       after_call fresh "hi" 1%nat) /\
  calls (after_call fresh "hi" 1%nat) = calls fresh ++ ["hi"].
Proof.
  apply (model_error_is_500
           (constant_pipeline (Raise (Exn "RuntimeError" "CUDA out of memory")))
           {[ "text" := PStr "hi" ]} "hi" fresh).
  - reflexivity.
  - reflexivity.
Defined.

(** ** The first result *)




(** ** The health check *)

(** C6: [GET /] takes no input and always answers 200 with the body
    [{"message": "Sentiment Analysis API is running!"}]; the process
    state, the pipeline in it included, is left as it was and has no part
    in the answer; any number of health checks in a row get that same
    answer. *)
Theorem health_check_fixed {model : Type}
    (sentiment_pipeline : string -> model -> result pyval * model)
    (w : world model) (n : nat) :
  app sentiment_pipeline GetRoot w
    = ({| status_code := 200;
          body := JSON (PDict {[ "message" :=
                                   PStr "Sentiment Analysis API is running!" ]}) |},
       w) /\
  serve sentiment_pipeline (replicate n GetRoot) w
    = (replicate n health_response, w).
Proof.
  split; [reflexivity|].
  induction n as [|n IH]; [reflexivity|].
  change (serve sentiment_pipeline (replicate (S n) GetRoot) w)
    with (let '(rs, w') := serve sentiment_pipeline (replicate n GetRoot) w in
          (health_response :: rs, w')).
  by rewrite IH.
Qed.

(** ** An empty result list *)

(** C7: when the pipeline returns the empty list, the index access
    [result[0]] raises [IndexError]; the handler does not catch it, so
    that exception is what leaves the handler, and the route answers with
    the generic 500 response. *)
Theorem empty_result_is_index_fault {model : Type}
    (sentiment_pipeline : string -> model -> result pyval * model)
    (d : gmap string pyval) (t : string) (w : world model) (m' : model) :
  d !! "text" = Some (PStr t) ->
  sentiment_pipeline t (pipeline_state w) = (Ok (PList []), m') ->
  predict_sentiment sentiment_pipeline {| text := t |} w
    = (Raise (IndexError "list index out of range"), after_call w t m') /\
  app sentiment_pipeline (PostPredict (PDict d)) w
    = (internal_server_error, after_call w t m').
Proof.
  intros Hd Hp. split.
  - rewrite predict_sentiment_run. cbn [text]. by rewrite Hp.
  - by apply (post_predict_index_fault _ d t w (PList []) m'
                (IndexError "list index out of range")).
Qed.

Lemma empty_result_is_index_fault_witness :
  predict_sentiment (constant_pipeline (Ok (PList []))) {| text := "hi" |} fresh
    = (Raise (IndexError "list index out of range"), after_call fresh "hi" 1%nat) /\
  app (constant_pipeline (Ok (PList [])))
    (PostPredict (PDict {[ "text" := PStr "hi" ]})) fresh
    = (internal_server_error, after_call fresh "hi" 1%nat).
Proof.
  apply (empty_result_is_index_fault (constant_pipeline (Ok (PList [])))
           {[ "text" := PStr "hi" ]} "hi" fresh).
  - reflexivity.
  - reflexivity.
Defined.

(** ** The empty text *)

(** C8: the body [{"text": ""}] passes validation, so the pipeline is
    called, once, on the empty text; and when that call returns a list
    with a first element, the route answers 200 with the empty text as
    [input_text] and that element as [prediction]. *)
Theorem empty_text_reaches_model {model : Type}
    (sentiment_pipeline : string -> model -> result pyval * model)
    (w : world model) :
  validate (PDict {[ "text" := PStr "" ]}) = inl {| text := "" |} /\
  calls (snd (app sentiment_pipeline
                (PostPredict (PDict {[ "text" := PStr "" ]})) w))
    = calls w ++ [""] /\
  (forall (p : pyval) (rest : list pyval) (m' : model),
     sentiment_pipeline "" (pipeline_state w) = (Ok (PList (p :: rest)), m') ->
     app sentiment_pipeline (PostPredict (PDict {[ "text" := PStr "" ]})) w
       = ({| status_code := 200;
             body := JSON (PDict {[ "input_text" := PStr "";
                                    "prediction" := p ]}) |},
          after_call w "" m')).
Proof.
  assert (({[ "text" := PStr "" ]} : gmap string pyval) !! "text"
          = Some (PStr "")) as Hd by apply lookup_singleton_eq.
  split; [by apply validate_text|]. split.
  - by apply post_predict_calls.
  - intros p rest m' Hp.
    by apply (post_predict_ok _ _ "" w (PList (p :: rest)) m' p).
Qed.

Lemma empty_text_reaches_model_witness :
  app toy_pipeline (PostPredict (PDict {[ "text" := PStr "" ]})) fresh
    = ({| status_code := 200;
          body := JSON (PDict {[ "input_text" := PStr "";
                                 "prediction" :=
                                   PDict {[ "label" := PStr "POSITIVE";
                                            "score" := PFloat (9998 # 10000) ]} ]}) |},
       after_call fresh "" 1%nat).
Proof.
  apply (proj2 (proj2 (empty_text_reaches_model toy_pipeline fresh)) _ [] 1%nat).
  reflexivity.
Defined.

(** ** Determinism and statelessness *)

Section Stateless.

Context {model : Type}.
Variable sentiment_pipeline : string -> model -> result pyval * model.

(** The contract of the loaded model: the outcome of a call is a function
    of the text; the internal state the pipeline happens to be in has no
    part in it. *)
Hypothesis pipeline_stateless :
  forall (t : string) (m1 m2 : model),
    fst (sentiment_pipeline t m1) = fst (sentiment_pipeline t m2).



End Stateless.



(** ** Extra fields in the body *)



(** ** Which status, and when *)

Section Coverage.

Context {model : Type}.
Variable sentiment_pipeline : string -> model -> result pyval * model.


(** A request that does not reach the model gets a response that is the
    same in every state, and leaves the state as it is. *)
Lemma app_without_model (req : request) :
  request_text req = None ->
  exists r, forall w : world model, app sentiment_pipeline req w = (r, w).
Proof.
  destruct req as [|b]; cbn [request_text app].
  - intros _. by exists health_response.
  - destruct (validate b) as [i|e]; [discriminate|].
    intros _. by exists (unprocessable e).
Qed.

(** A request that reaches the model calls the pipeline once, on its
    text. *)
Lemma app_with_model (req : request) (t : string) (w : world model) :
  request_text req = Some t ->
  snd (app sentiment_pipeline req w)
    = after_call w t (snd (sentiment_pipeline t (pipeline_state w))).
Proof.
  destruct req as [|b]; cbn [request_text app]; [discriminate|].
  destruct (validate b) as [i|e]; [|discriminate].
  intros [= <-]. unfold endpoint. rewrite predict_sentiment_run.
  destruct (sentiment_pipeline _ _) as [[res|e] m']; [|done].
  by destruct (getitem0 res).
Qed.

Lemma serve_cons (req : request) (reqs : list request) (w : world model) :
  serve sentiment_pipeline (req :: reqs) w
    = (fst (app sentiment_pipeline req w)
         :: fst (serve sentiment_pipeline reqs (snd (app sentiment_pipeline req w))),
       snd (serve sentiment_pipeline reqs (snd (app sentiment_pipeline req w)))).
Proof.
  cbn [serve]. destruct (app sentiment_pipeline req w) as [r w'].
  cbn [fst snd].
  by destruct (serve sentiment_pipeline reqs w') as [rs w''].
Qed.

End Coverage.


(** X2: a 200 response of the predict route tells the whole story of the
    request: the body was an object with a string [text], the pipeline was
    called once, on that text, and returned; the response body has
    [input_text], the text, and [prediction], the first element of what
    the pipeline returned, and no other key. *)
Theorem predict_200_is_model_output {model : Type}
    (sentiment_pipeline : string -> model -> result pyval * model)
    (b : pyval) (w w' : world model) (r : response) :
  app sentiment_pipeline (PostPredict b) w = (r, w') ->
  status_code r = 200 ->
  exists s res p,
    item "text" b = Some (PStr s) /\
    sentiment_pipeline s (pipeline_state w) = (Ok res, pipeline_state w') /\
    getitem0 res = Ok p /\
    calls w' = calls w ++ [s] /\
    response_field "input_text" r = Some (PStr s) /\
    response_field "prediction" r = Some p /\
    (forall k, k <> "input_text" -> k <> "prediction" -> response_field k r = None).
Proof.
  intros Hrun Hst.
  destruct b as [| | | | | |d]; try (by injection Hrun as <- <-).
  destruct (d !! "text") as [v|] eqn:Hd.
  2:{ unfold app, validate in Hrun. rewrite Hd in Hrun.
      by injection Hrun as <- <-. }
  destruct v as [| | | |s| |];
    try (unfold app, validate in Hrun; rewrite Hd in Hrun;
         by injection Hrun as <- <-).
  destruct (post_predict_200_inv _ d s w r w' Hd Hrun Hst)
    as (res & p & Hp & Hg & ->).
  exists s, res, p. split; [done|]. split; [done|]. split; [done|].
  split.
  { pose proof (post_predict_calls sentiment_pipeline d s w Hd) as Hc.
    by rewrite Hrun in Hc. }
  unfold response_field, ok_response, item; cbn [body].
  split; [apply lookup_insert_eq|]. split.
  - rewrite lookup_insert_ne by done. apply lookup_insert_eq.
  - intros k Hk1 Hk2. rewrite lookup_insert_ne by done.
    by apply lookup_singleton_ne.
Qed.

Lemma predict_200_is_model_output_witness :
  exists s res p,
    item "text" (PDict {[ "text" := PStr "not good"; "lang" := PStr "en" ]})
      = Some (PStr s) /\
    toy_pipeline s (pipeline_state fresh)
      = (Ok res, pipeline_state (after_call fresh "not good" 1%nat)) /\
    getitem0 res = Ok p /\
    calls (after_call fresh "not good" 1%nat) = calls fresh ++ [s] /\
    response_field "input_text"
      (ok_response "not good"
         (PDict {[ "label" := PStr "NEGATIVE"; "score" := PFloat (9998 # 10000) ]}))
      = Some (PStr s) /\
    response_field "prediction"
      (ok_response "not good"
         (PDict {[ "label" := PStr "NEGATIVE"; "score" := PFloat (9998 # 10000) ]}))
      = Some p /\
    (forall k, k <> "input_text" -> k <> "prediction" ->
       response_field k
         (ok_response "not good"
            (PDict {[ "label" := PStr "NEGATIVE"; "score" := PFloat (9998 # 10000) ]}))
       = None).
Proof.
  apply (predict_200_is_model_output toy_pipeline
           (PDict {[ "text" := PStr "not good"; "lang" := PStr "en" ]}) fresh).
  - reflexivity.
  - reflexivity.
Defined.

(** ** The model over a sequence of requests *)

(** X3: after any sequence of requests, the pipeline has been called once
    for each request whose body passed validation, on that body's text,
    in the order of the requests, and at no other time: the call log has
    grown by exactly these texts, and the state of the pipeline is the one
    these calls, and nothing else, have brought it to. *)
Theorem serve_calls_model_once_per_valid_request {model : Type}
    (sentiment_pipeline : string -> model -> result pyval * model)
    (reqs : list request) (w : world model) :
  snd (serve sentiment_pipeline reqs w)
    = {| pipeline_state :=
           run_pipeline sentiment_pipeline (model_texts reqs) (pipeline_state w);
         calls := calls w ++ model_texts reqs |}.
Proof.
  revert w. induction reqs as [|req reqs IH]; intros w.
  - cbn. rewrite app_nil_r. by destruct w.
  - rewrite serve_cons. cbn [snd]. rewrite IH.
    change (model_texts (req :: reqs))
      with (match request_text req with
            | Some t => t :: model_texts reqs
            | None => model_texts reqs
            end).
    destruct (request_text req) as [t|] eqn:Ht.
    + rewrite (app_with_model sentiment_pipeline req t w Ht).
      cbn [after_call pipeline_state calls run_pipeline].
      by rewrite <- app_assoc.
    + destruct (app_without_model sentiment_pipeline req Ht) as [r Hr].
      by rewrite Hr.
Qed.

(** X4: requests that do not reach the model, health checks and rejected
    bodies, are transparent.  Served without them, the other requests of a
    sequence get the responses they get with them, and the process ends
    in the same state. *)
Theorem serve_without_other_requests {model : Type}
    (sentiment_pipeline : string -> model -> result pyval * model)
    (reqs : list request) (w : world model) :
  serve sentiment_pipeline (List.filter reaches_model reqs) w
    = (responses_of_model_requests reqs (fst (serve sentiment_pipeline reqs w)),
       snd (serve sentiment_pipeline reqs w)).
Proof.
  revert w. induction reqs as [|req reqs IH]; intros w; [reflexivity|].
  rewrite (serve_cons sentiment_pipeline req reqs w). cbn [fst snd].
  unfold responses_of_model_requests.
  cbn [List.filter combine fst].
  destruct (request_text req) as [t|] eqn:Ht.
  - assert (reaches_model req = true) as -> by (unfold reaches_model; by rewrite Ht).
    rewrite serve_cons, IH. reflexivity.
  - assert (reaches_model req = false) as -> by (unfold reaches_model; by rewrite Ht).
    destruct (app_without_model sentiment_pipeline req Ht) as [r Hr].
    rewrite Hr. cbn [snd]. apply IH.
Qed.

(** ** What [result[0]] does with other results *)



(** X6: when the pipeline returns a value that is neither a list nor a
    string with a first element, the index access fails, the exception is
    an [IndexError] (empty list, empty string), a [KeyError] (a dict) or a
    [TypeError] (null, boolean, number), it leaves the handler uncaught
    after the one call of the pipeline, and the response is the generic
    500. *)
Theorem unindexable_result_is_500 {model : Type}
    (sentiment_pipeline : string -> model -> result pyval * model)
    (d : gmap string pyval) (t : string) (w : world model)
    (res : pyval) (m' : model) :
  d !! "text" = Some (PStr t) ->
  sentiment_pipeline t (pipeline_state w) = (Ok res, m') ->
  (forall p rest, res <> PList (p :: rest)) ->
  (forall c s, res <> PStr (String c s)) ->
  exists e,
    predict_sentiment sentiment_pipeline {| text := t |} w
      = (Raise e, after_call w t m') /\
    exn_class e =
      match res with
      | PList _ | PStr _ => "IndexError"
      | PDict _ => "KeyError"
      | _ => "TypeError"
      end /\
    app sentiment_pipeline (PostPredict (PDict d)) w
      = (internal_server_error, after_call w t m').
Proof.
  intros Hd Hp Hlist Hstr.
  assert (exists e, getitem0 res = Raise e /\
            exn_class e =
              match res with
              | PList _ | PStr _ => "IndexError"
              | PDict _ => "KeyError"
              | _ => "TypeError"
              end) as (e & Hg & Hc).
  { destruct res as [| | | |s|l|d']; cbn [getitem0];
      try (eexists; split; reflexivity).
    - destruct s as [|c s]; [eexists; split; reflexivity|].
      by destruct (Hstr c s).
    - destruct l as [|p rest]; [eexists; split; reflexivity|].
      by destruct (Hlist p rest). }
  exists e. split; [|split; [done|]].
  - rewrite predict_sentiment_run. cbn [text]. by rewrite Hp, Hg.
  - by apply (post_predict_index_fault _ d t w res m' e).
Qed.

Lemma unindexable_result_is_500_witness :
  exists e,
    predict_sentiment
      (constant_pipeline (Ok (PDict {[ "label" := PStr "POSITIVE" ]})))
      {| text := "hi" |} fresh
      = (Raise e, after_call fresh "hi" 1%nat) /\
    exn_class e = "KeyError" /\
    app (constant_pipeline (Ok (PDict {[ "label" := PStr "POSITIVE" ]})))
      (PostPredict (PDict {[ "text" := PStr "hi" ]})) fresh
      = (internal_server_error, after_call fresh "hi" 1%nat).
Proof.
  apply (unindexable_result_is_500
           (constant_pipeline (Ok (PDict {[ "label" := PStr "POSITIVE" ]})))
           {[ "text" := PStr "hi" ]} "hi" fresh
           (PDict {[ "label" := PStr "POSITIVE" ]}) 1%nat).
  - reflexivity.
  - reflexivity.
  - discriminate.
  - discriminate.
Defined.

(** ** The test of the predict route *)

Section TestPredict.

Context {model : Type}.
Variable sentiment_pipeline : string -> model -> result pyval * model.

Lemma in_strs_labels (v : pyval) :
  in_strs v ["POSITIVE"; "NEGATIVE"] = true <->
  exists l, v = PStr l /\ l ∈ labels.
Proof.
  unfold in_strs, labels. cbn [existsb]. rewrite !orb_true_iff.
  split.
  - intros [H|[H|H]]; [| |discriminate];
      destruct v; try discriminate; cbn [eq_str] in H;
      apply String.eqb_eq in H; subst; eexists; (split; [reflexivity|]);
      set_solver.
  - intros (l & -> & Hl). cbn [eq_str].
    apply elem_of_cons in Hl as [->|Hl]; [by left|].
    apply elem_of_cons in Hl as [->|Hl]; [by right; left|].
    by apply elem_of_nil in Hl.
Qed.

Lemma getitem_item (k : string) (v x : pyval) :
  getitem k v = Ok x <-> item k v = Some x.
Proof.
  destruct v as [| | | | | |d]; cbn [getitem item]; try (split; discriminate).
  destruct (d !! k); split; intros H; by simplify_eq.
Qed.

(** What the assertions on [prediction] come to. *)
Lemma prediction_checks (p : pyval) (w : world model) :
  fst ((do label <- lift (getitem "label" p);
        do a3 <- lift (assert_ (in_strs label ["POSITIVE"; "NEGATIVE"]));
        do prediction' <- lift (Ok p);
        do score <- lift (getitem "score" prediction');
        do in_range <- lift (between_0_and_1 score);
        lift (assert_ in_range)) w) = Ok tt
  <-> is_prediction_result p = true.
Proof.
  unfold is_prediction_result, bind, lift.
  destruct (getitem "label" p) as [label|e] eqn:Hl.
  - apply getitem_item in Hl. rewrite Hl.
    destruct (in_strs label ["POSITIVE"; "NEGATIVE"]) eqn:Hin; cbn [assert_].
    + apply in_strs_labels in Hin as (l & -> & Hl').
      destruct (getitem "score" p) as [score|e] eqn:Hs.
      * apply getitem_item in Hs. rewrite Hs.
        destruct score as [|b|z|q| | |]; cbn [between_0_and_1 fst];
          try (split; discriminate).
        -- destruct b; cbn; split; discriminate.
        -- destruct ((0 <? z) && (z <? 1)) eqn:Hz; cbn [assert_ fst];
             [|split; discriminate].
           apply andb_true_iff in Hz as [?%Z.ltb_lt ?%Z.ltb_lt]. lia.
        -- rewrite (bool_decide_eq_true_2 _ Hl'), andb_true_l.
           destruct (score_in_open_unit q); cbn [assert_ fst];
             split; (done || discriminate).
      * cbn [fst]. split; [discriminate|].
        destruct (item "score" p) as [x|] eqn:Hx; [|discriminate].
        apply getitem_item in Hx. congruence.
    + cbn [fst]. split; [discriminate|].
      destruct label as [| | | |l| |]; try discriminate.
      destruct (item "score" p) as [[| | |q| | |]|]; try discriminate.
      intros [Hdec _]%andb_true_iff. apply bool_decide_eq_true in Hdec.
      assert (in_strs (PStr l) ["POSITIVE"; "NEGATIVE"] = true) as Hyes
        by (apply in_strs_labels; eauto).
      congruence.
  - cbn [fst]. split; [discriminate|].
    destruct (item "label" p) as [x|] eqn:Hx; [|discriminate].
    apply getitem_item in Hx. congruence.
Qed.

End TestPredict.

(** X7: [test_predict_sentiment] passes exactly when the pipeline, called
    on the test text "What a lovely day!", returns a value whose first
    element is a dict with a [label] equal to POSITIVE or NEGATIVE and a
    float [score] strictly between 0 and 1.  The assertions on the status
    and on [input_text] never fail on their own. *)
Theorem test_predict_sentiment_passes_iff {model : Type}
    (sentiment_pipeline : string -> model -> result pyval * model)
    (w : world model) :
  fst (test_predict_sentiment sentiment_pipeline w) = Ok tt <->
  exists res p,
    fst (sentiment_pipeline "What a lovely day!" (pipeline_state w)) = Ok res /\
    getitem0 res = Ok p /\
    is_prediction_result p = true.
Proof.
  unfold test_predict_sentiment, client.
  rewrite (validate_text {[ "text" := PStr "What a lovely day!" ]}
             "What a lovely day!" (lookup_singleton_eq _ _)).
  unfold bind at 1 2. rewrite predict_sentiment_run. cbn [text].
  destruct (sentiment_pipeline _ _) as [[res|e] m'].
  2:{ cbn [fst]. split; [discriminate|]. by intros (? & ? & ? & _). }
  destruct (getitem0 res) as [p|e] eqn:Hg.
  2:{ cbn [fst]. split; [discriminate|].
      intros (res' & p' & [= <-] & Hg' & _). congruence. }
  pose proof (prediction_checks p (after_call w "What a lovely day!" m'))
    as Hchecks.
  assert (getitem "input_text"
            (PDict {[ "input_text" := PStr "What a lovely day!";
                      "prediction" := p ]})
          = Ok (PStr "What a lovely day!")) as Hi.
  { apply getitem_item. apply lookup_insert_eq. }
  assert (getitem "prediction"
            (PDict {[ "input_text" := PStr "What a lovely day!";
                      "prediction" := p ]})
          = Ok p) as Hpred.
  { apply getitem_item. cbn [item]. rewrite lookup_insert_ne by done.
    apply lookup_singleton_eq. }
  unfold ret, bind, lift in *. cbn [status_code body json].
  change (200 =? 200) with true. cbn [assert_].
  rewrite Hi. cbn [eq_str]. rewrite String.eqb_refl. cbn [assert_].
  rewrite Hpred. cbn [fst].
  rewrite Hchecks. split.
  - intros Hp. by exists res, p.
  - intros (res' & p' & [= <-] & Hg' & Hp). congruence.
Qed.
